(** * webOS Build Dashboard (app.py): a shallow embedding and its properties

    The dashboard is glue over the operating system: each request shells
    out, reads the file system or lists processes, and returns a snapshot.
    The embedding keeps the code of [app.py] as Rocq functions and takes
    the operating system as an explicit argument, a record [host] of the
    observations the code makes of it.

    - Python strings are sequences of code points; [string] stands for
      the strings whose code points lie below 256, one [ascii] per code
      point.
    - Code that app.py wraps in [try] runs in the monad [result], and
      its handlers are the clauses of [try_except].  The queries app.py
      makes outside any [try] (exists, is_dir, iterdir, glob, stat) are
      total observations of the host.
    - The libraries (subprocess, pathlib, psutil, datetime, markdown2)
      are not part of the repository: they appear as fields of [host] or
      as the short models [subprocess_run], [universal_newlines],
      [file_lines] and [sort_reverse] of their documented behaviour.
      Timestamps are rationals, and their rendering in local time,
      [local_isoformat], is a field of the host. *)

From Stdlib Require Import List String Ascii Bool ZArith NArith QArith Lia.
From Stdlib Require Import DecimalString.
From Stdlib Require Import Sorting.Sorted Sorting.Permutation.
Import ListNotations.
Local Open Scope list_scope.
Local Open Scope string_scope.

(* ================================================================== *)
(** ** The methods of Python's [str] that app.py calls *)
(* ================================================================== *)

Module PyStr.

(** [c.isspace()] for a code point below 256: TAB..CR, FS..US, space,
    NEL (0x85) and NBSP (0xA0). *)
Definition isspace (c : ascii) : bool :=
  let n := N_of_ascii c in
  (((9 <=? n) && (n <=? 13)) || ((28 <=? n) && (n <=? 32))
   || (n =? 133) || (n =? 160))%N.

(** Membership of a character in the argument of [strip(chars)]. *)
Fixpoint mem (c : ascii) (chars : string) : bool :=
  match chars with
  | EmptyString => false
  | String d r => Ascii.eqb c d || mem c r
  end.

Fixpoint lstrip_by (p : ascii -> bool) (s : string) : string :=
  match s with
  | EmptyString => EmptyString
  | String c r => if p c then lstrip_by p r else s
  end.

Fixpoint rstrip_by (p : ascii -> bool) (s : string) : string :=
  match s with
  | EmptyString => EmptyString
  | String c r =>
      match rstrip_by p r with
      | EmptyString => if p c then EmptyString else String c EmptyString
      | r' => String c r'
      end
  end.

Definition strip_by (p : ascii -> bool) (s : string) : string :=
  lstrip_by p (rstrip_by p s).

(** [s.strip()] *)
Definition strip (s : string) : string := strip_by isspace s.

(** [s.strip(chars)] *)
Definition strip_chars (chars s : string) : string :=
  strip_by (fun c => mem c chars) s.

(** [s.startswith(p)] *)
Definition startswith (s p : string) : bool := String.prefix p s.

(** [s.split(sep)] for a separator of one character: every occurrence
    splits, and the result always has at least one element. *)
Fixpoint split (sep : ascii) (s : string) : list string :=
  match s with
  | EmptyString => [EmptyString]
  | String c r =>
      if Ascii.eqb c sep then EmptyString :: split sep r
      else match split sep r with
           | x :: xs => String c x :: xs
           | [] => [String c EmptyString]
           end
  end.

(** [c.lower()] for a code point below 256: A..Z and the Latin-1
    capitals 0xC0..0xDE (0xD7, the multiplication sign, apart). *)
Definition lower_char (c : ascii) : ascii :=
  let n := N_of_ascii c in
  if (((65 <=? n) && (n <=? 90))
      || ((192 <=? n) && (n <=? 222) && negb (n =? 215)))%N
  then ascii_of_N (n + 32) else c.

(** [s.lower()] *)
Fixpoint lower (s : string) : string :=
  match s with
  | EmptyString => EmptyString
  | String c r => String (lower_char c) (lower r)
  end.

(** [needle in s] *)
Fixpoint contains (needle s : string) : bool :=
  String.prefix needle s
  || match s with
     | EmptyString => false
     | String _ r => contains needle r
     end.

(** [sep.join(parts)] *)
Definition join (sep : string) (parts : list string) : string :=
  String.concat sep parts.

(** [s.endswith(suffix)] *)
Fixpoint endswith (s suffix : string) : bool :=
  String.eqb s suffix
  || match s with
     | EmptyString => false
     | String _ r => endswith r suffix
     end.

(** [bool(s)]: a string is true when it is not empty. *)
Definition truthy (s : string) : bool :=
  match s with EmptyString => false | String _ _ => true end.

End PyStr.

(* ================================================================== *)
(** ** Exceptions *)
(* ================================================================== *)

(** The exception classes the handlers of app.py tell apart; all of them
    derive from [Exception]. *)
Inductive exn_class : Type :=
| TimeoutExpired      (* subprocess.TimeoutExpired *)
| NoSuchProcess       (* psutil.NoSuchProcess *)
| AccessDenied        (* psutil.AccessDenied *)
| OtherException.     (* any other subclass of Exception *)

Definition exn_class_eqb (a b : exn_class) : bool :=
  match a, b with
  | TimeoutExpired, TimeoutExpired
  | NoSuchProcess, NoSuchProcess
  | AccessDenied, AccessDenied
  | OtherException, OtherException => true
  | _, _ => false
  end.

(** An exception object: its class and [str(e)]. *)
Record exn : Type := mkExn { class_of : exn_class; str : string }.

(** A computation returns a value or raises. *)
Inductive result (A : Type) : Type :=
| Ok (a : A)
| Raise (e : exn).
Arguments Ok {A} a.
Arguments Raise {A} e.

Definition bind {A B : Type} (m : result A) (k : A -> result B) : result B :=
  match m with
  | Ok a => k a
  | Raise e => Raise e
  end.

Notation "x <- m ;; k" := (bind m (fun x => k))
  (at level 61, m at next level, right associativity).

(** An [except] clause: which exceptions it matches, and its body. *)
Definition handler (A : Type) : Type := ((exn -> bool) * (exn -> result A))%type.

(** [try: body  except C1: h1  except C2: h2 ...]: the first clause that
    matches runs; an exception no clause matches propagates. *)
Fixpoint try_except {A : Type} (body : result A) (hs : list (handler A))
  : result A :=
  match body with
  | Ok a => Ok a
  | Raise e =>
      match hs with
      | [] => Raise e
      | (matches, h) :: hs' =>
          if matches e then h e else try_except (Raise e) hs'
      end
  end.

Definition except_class (c : exn_class) : exn -> bool :=
  fun e => exn_class_eqb (class_of e) c.

Definition except_classes (cs : list exn_class) : exn -> bool :=
  fun e => existsb (exn_class_eqb (class_of e)) cs.

(** [except Exception]: every class above derives from [Exception]. *)
Definition except_Exception : exn -> bool := fun _ => true.

(* ================================================================== *)
(** ** The host: what the code observes of the operating system *)
(* ================================================================== *)

(** A [pathlib.Path], as the list of the parts it was joined from. *)
Definition path : Type := list string.

Definition joinpath (p : path) (part : string) : path := (p ++ [part])%list.
Notation "p // s" := (joinpath p s) (at level 40, left associativity).

(** [p.name]: the final component. *)
Definition path_name (p : path) : string := last p "".

(** What a command does when the shell runs it. *)
Inductive behaviour : Type :=
| Terminates (elapsed_ms : N) (returncode : Z) (out err : string)
| RunsForever
| CannotRun (e : exn).   (* spawning or decoding the output raises *)

(** What reading a text file does: the text is delivered whole, or the
    text of some first lines is delivered and then [open] or the read
    raises ([ReadRaises ""] when [open] itself raises). *)
Inductive file_read : Type :=
| ReadOk (text : string)
| ReadRaises (delivered : string) (e : exn).

(** The [info] dictionary psutil attaches to a process, at the types at
    which the code reads it: the name is a str; the command line is the
    list of arguments, possibly empty, or None. *)
Record proc_info : Type := mkProcInfo {
  info_pid : Z;
  info_name : string;
  info_cmdline : option (list string);
  info_create_time : Q
}.

(** A process as [psutil.process_iter] yields it: its information is
    there, or reading it fails because the process has exited or
    permission is denied. *)
Inductive process : Type :=
| Accessible (i : proc_info)
| Exited
| Forbidden.

Record host : Type := mkHost {
  base_dir : path;                              (* Path(__file__).parent *)
  shell : string -> path -> behaviour;          (* sh -c cmd, in cwd *)
  path_exists : path -> bool;                   (* Path.exists *)
  path_is_dir : path -> bool;                   (* Path.is_dir *)
  listdir : path -> list string;                (* names, in scan order *)
  st_size : path -> Z;                          (* Path.stat().st_size *)
  st_mtime : path -> Q;                         (* Path.stat().st_mtime *)
  read_text : path -> file_read;                (* open(p, 'r') and read *)
  local_isoformat : Q -> string;   (* datetime.fromtimestamp(t).isoformat() *)
  markdown : string -> result string            (* markdown2.markdown *)
}.

(** [subprocess.run(..., timeout=t)]: the completed process, or
    [TimeoutExpired] when the command is still running after [t] seconds. *)
Record CompletedProcess : Type := mkCompleted {
  cp_returncode : Z;
  cp_stdout : string;
  cp_stderr : string
}.

Definition exceeds (timeout_s : N) (b : behaviour) : bool :=
  match b with
  | Terminates elapsed_ms _ _ _ => (timeout_s * 1000 <? elapsed_ms)%N
  | RunsForever => true
  | CannotRun _ => false
  end.

(** [str(e)] of the [TimeoutExpired] that [subprocess.run] raises. *)
Definition timeout_message (cmd : string) (timeout_s : N) : string :=
  "Command '" ++ cmd ++ "' timed out after "
  ++ NilEmpty.string_of_uint (N.to_uint timeout_s) ++ " seconds".

Definition subprocess_run (os : host) (cmd : string) (cwd : path)
    (timeout_s : N) : result CompletedProcess :=
  match shell os cmd cwd with
  | CannotRun e => Raise e
  | Terminates _ rc out err as b =>
      if exceeds timeout_s b
      then Raise (mkExn TimeoutExpired (timeout_message cmd timeout_s))
      else Ok (mkCompleted rc out err)
  | RunsForever =>
      Raise (mkExn TimeoutExpired (timeout_message cmd timeout_s))
  end.

(* ================================================================== *)
(** ** app.py *)
(* ================================================================== *)

(** The dictionary [run_command] returns. *)
Record CommandResult : Type := mkCommandResult {
  success : bool;
  stdout : string;
  stderr : string;
  returncode : Z
}.

(** The dictionary [get_git_info] returns. *)
Record GitInfo : Type := mkGitInfo {
  branch : string;
  commit : string;
  dirty : bool;
  status : string
}.

(** An element of [status['builds']]: keys machine, image, size, modified. *)
Record BuildArtifact : Type := mkBuildArtifact {
  machine_name : string;
  image : string;
  size : Z;
  modified : string
}.

(** The dictionary [get_build_status] returns. *)
Record BuildStatus : Type := mkBuildStatus {
  configured : bool;
  machine : option string;
  builds : list BuildArtifact;
  last_build : option BuildArtifact
}.

Definition set_configured (b : bool) (st : BuildStatus) : BuildStatus :=
  {| configured := b; machine := machine st;
     builds := builds st; last_build := last_build st |}.

Definition set_machine (m : option string) (st : BuildStatus) : BuildStatus :=
  {| configured := configured st; machine := m;
     builds := builds st; last_build := last_build st |}.

Definition set_builds (l : list BuildArtifact) (st : BuildStatus) : BuildStatus :=
  {| configured := configured st; machine := machine st;
     builds := l; last_build := last_build st |}.

Definition set_last_build (b : option BuildArtifact) (st : BuildStatus)
  : BuildStatus :=
  {| configured := configured st; machine := machine st;
     builds := builds st; last_build := b |}.

(** An element of the list [get_qemu_processes] returns. *)
Record QemuProcess : Type := mkQemuProcess {
  pid : Z;
  name : string;
  cmdline : string;
  started : string
}.

(** The payload of [/api/qemu/list]. *)
Record QemuList : Type := mkQemuList {
  processes : list QemuProcess;
  count : nat
}.

(** The payloads of [/api/docs/<path>]. *)
Inductive DocsBody : Type :=
| ErrorBody (error : string)
| DocBody (filename content format : string).

(** A Flask response: the JSON payload and the HTTP status. *)
Definition response : Type := (DocsBody * Z)%type.

Definition LF : ascii := "010"%char.
Definition CR : ascii := "013"%char.
Definition dquote : string := String "034"%char EmptyString.
Definition squote : string := "'".

(** Text mode with universal newlines: CR LF and a lone CR read as LF. *)
Fixpoint universal_newlines (s : string) : string :=
  match s with
  | EmptyString => EmptyString
  | String c r =>
      if Ascii.eqb c CR then
        match r with
        | String c' r' =>
            if Ascii.eqb c' LF then String LF (universal_newlines r')
            else String LF (universal_newlines r)
        | EmptyString => String LF EmptyString
        end
      else String c (universal_newlines r)
  end.

(** The lines iterating over a text file yields: each ends after its LF,
    which it keeps; the last one may lack it. *)
Fixpoint file_lines (s : string) : list string :=
  match s with
  | EmptyString => []
  | String c r =>
      if Ascii.eqb c LF then String LF EmptyString :: file_lines r
      else match file_lines r with
           | [] => [String c EmptyString]
           | l :: ls => String c l :: ls
           end
  end.

(** [l.sort(key=key, reverse=True)] with string keys: a stable sort,
    largest key first; elements of equal key keep their order. *)
Section ListSort.
Context {A : Type} (key : A -> string).

Fixpoint insert_reverse (x : A) (l : list A) : list A :=
  match l with
  | [] => [x]
  | y :: ys =>
      if String.ltb (key x) (key y) then y :: insert_reverse x ys
      else x :: y :: ys
  end.

Definition sort_reverse (l : list A) : list A :=
  fold_right insert_reverse [] l.
End ListSort.

Section Dashboard.

Variable os : host.

Definition BASE_DIR : path := base_dir os.
Definition BUILD_DIR : path := BASE_DIR // "BUILD".
Definition DOCS_DIR : path := BASE_DIR // "docs".
Definition SCRIPTS_DIR : path := BASE_DIR // "scripts".

(** [cwd or BASE_DIR] *)
Definition cwd_or_base (cwd : option path) : path :=
  match cwd with
  | Some d => d
  | None => BASE_DIR
  end.

Definition run_command (cmd : string) (cwd : option path)
  : result CommandResult :=
  try_except
    (result_ <- subprocess_run os cmd (cwd_or_base cwd) 30 ;;
     Ok {| success := (cp_returncode result_ =? 0)%Z;
           stdout := cp_stdout result_;
           stderr := cp_stderr result_;
           returncode := cp_returncode result_ |})
    [ (except_class TimeoutExpired,
       fun _ => Ok {| success := false;
                      stdout := "";
                      stderr := "Command timed out";
                      returncode := (-1)%Z |});
      (except_Exception,
       fun e => Ok {| success := false;
                      stdout := "";
                      stderr := str e;
                      returncode := (-1)%Z |}) ].

Definition get_git_info : result GitInfo :=
  branch_result <- run_command "git rev-parse --abbrev-ref HEAD" None ;;
  commit_result <- run_command "git rev-parse --short HEAD" None ;;
  status_result <- run_command "git status --short" None ;;
  Ok {| branch := if success branch_result
                  then PyStr.strip (stdout branch_result) else "unknown";
        commit := if success commit_result
                  then PyStr.strip (stdout commit_result) else "unknown";
        dirty := if success status_result
                 then PyStr.truthy (PyStr.strip (stdout status_result))
                 else false;
        status := if success status_result
                  then PyStr.strip (stdout status_result) else "" |}.

(* ---------------------------------------------------------------- *)

(** [for line in f] on [open(p, 'r')]: the lines, then the exception
    that ends the iteration early, if any. *)
Definition open_lines (p : path) : list string * option exn :=
  match read_text os p with
  | ReadOk text => (file_lines (universal_newlines text), None)
  | ReadRaises delivered e =>
      (file_lines (universal_newlines delivered), Some e)
  end.

(** [f.read()] on [open(p, 'r')]. *)
Definition open_read (p : path) : result string :=
  match read_text os p with
  | ReadOk text => Ok (universal_newlines text)
  | ReadRaises _ e => Raise e
  end.

(** [p.iterdir()] *)
Definition iterdir (p : path) : list path :=
  map (joinpath p) (listdir os p).

(** [p.glob("*" + suffix)] *)
Definition glob_star (p : path) (suffix : string) : list path :=
  map (joinpath p)
      (filter (fun n => PyStr.endswith n suffix) (listdir os p)).

(** The loop over the lines of local.conf (lines 127-134); [status] is
    assigned only on the iteration that breaks. *)
Fixpoint scan_local_conf (lines : list string) (stop : option exn)
    (status : BuildStatus) : result BuildStatus :=
  match lines with
  | [] =>
      match stop with
      | Some e => Raise e
      | None => Ok status
      end
  | line :: rest =>
      if PyStr.startswith (PyStr.strip line) "MACHINE" then
        let parts := PyStr.split "="%char line in
        if (1 <? List.length parts)%nat then
          let machine :=
            PyStr.strip_chars squote
              (PyStr.strip_chars dquote (PyStr.strip (nth 1 parts ""))) in
          Ok (set_machine (Some machine) status)
        else scan_local_conf rest stop status
      else scan_local_conf rest stop status
  end.

(** The dictionary appended for one image (lines 146-152). *)
Definition artifact_of (machine_dir img : path) : BuildArtifact :=
  {| machine_name := path_name machine_dir;
     image := path_name img;
     size := st_size os img;
     modified := local_isoformat os (st_mtime os img) |}.

(** The two nested loops over the deploy directory (lines 142-152). *)
Definition append_images (status : BuildStatus) (machine_dir : path)
  : BuildStatus :=
  if path_is_dir os machine_dir then
    fold_left
      (fun st img =>
         set_builds (builds st ++ [artifact_of machine_dir img])%list st)
      (glob_star machine_dir ".wic") status
  else status.

Definition scan_deploy (deploy_dir : path) (status : BuildStatus)
  : BuildStatus :=
  fold_left append_images (iterdir deploy_dir) status.

Definition get_build_status : result BuildStatus :=
  let status := {| configured := false; machine := None;
                   builds := []; last_build := None |} in
  let oe_init := BASE_DIR // "oe-init-build-env" in
  status <-
    (if path_exists os oe_init then
       let status := set_configured true status in
       let local_conf := BASE_DIR // "conf" // "local.conf" in
       if path_exists os local_conf then
         try_except
           (let '(lines, stop) := open_lines local_conf in
            scan_local_conf lines stop status)
           [ (except_Exception, fun _ => Ok status) ]
       else Ok status
     else Ok status) ;;
  if path_exists os BUILD_DIR then
    let deploy_dir := BUILD_DIR // "deploy" // "images" in
    if path_exists os deploy_dir then
      let status := scan_deploy deploy_dir status in
      match builds status with
      | [] => Ok status
      | _ :: _ =>
          let status := set_builds (sort_reverse modified (builds status))
                                   status in
          Ok (set_last_build (hd_error (builds status)) status)
      end
    else Ok status
  else Ok status.

(* ---------------------------------------------------------------- *)

(** Reading [proc.info] inside the [try] of [get_qemu_processes]. *)
Definition proc_info_of (proc : process) : result proc_info :=
  match proc with
  | Accessible i => Ok i
  | Exited => Raise (mkExn NoSuchProcess "process no longer exists")
  | Forbidden => Raise (mkExn AccessDenied "access denied")
  end.

(** The loop of [get_qemu_processes] over what [psutil.process_iter]
    yields; [table] is the process table that call observes. *)
Fixpoint qemu_loop (table : list process) (processes : list QemuProcess)
  : result (list QemuProcess) :=
  match table with
  | [] => Ok processes
  | proc :: rest =>
      processes <-
        try_except
          (info <- proc_info_of proc ;;
           if PyStr.contains "qemu" (PyStr.lower (info_name info)) then
             Ok (processes ++
                 [ {| pid := info_pid info;
                      name := info_name info;
                      cmdline :=
                        match info_cmdline info with
                        | Some ((_ :: _) as args) => PyStr.join " " args
                        | _ => ""
                        end;
                      started :=
                        local_isoformat os (info_create_time info) |} ])%list
           else Ok processes)
          [ (except_classes [NoSuchProcess; AccessDenied],
             fun _ => Ok processes) ] ;;
      qemu_loop rest processes
  end.

Definition get_qemu_processes (table : list process)
  : result (list QemuProcess) :=
  qemu_loop table [].

(** [/api/qemu/list]: the handler calls [get_qemu_processes] twice;
    [first] and [second] are the process tables the two calls observe. *)
Definition api_qemu_list (first second : list process) : result QemuList :=
  listed <- get_qemu_processes first ;;
  again <- get_qemu_processes second ;;
  Ok {| processes := listed; count := List.length again |}.

(** [/api/docs/<path:filename>] *)
Definition api_docs (filename : string) : result response :=
  let doc_path := DOCS_DIR // filename in
  if negb (path_exists os doc_path) then
    Ok (ErrorBody "Documentation file not found", 404%Z)
  else
    try_except
      (content <- open_read doc_path ;;
       if PyStr.endswith filename ".md" then
         html_content <- markdown os content ;;
         Ok (DocBody filename html_content "html", 200%Z)
       else
         Ok (DocBody filename content "text", 200%Z))
      [ (except_Exception, fun e => Ok (ErrorBody (str e), 500%Z)) ].

End Dashboard.

(* ================================================================== *)
(** ** Example hosts *)
(* ================================================================== *)

Fixpoint path_eqb (p q : path) : bool :=
  match p, q with
  | [], [] => true
  | a :: p', b :: q' => String.eqb a b && path_eqb p' q'
  | _, _ => false
  end.

Definition NL : string := String LF EmptyString.

Definition install_dir : path := ["/srv"; "dashboard"].

(** A host with an empty installation directory, on which every command
    prints nothing and exits with status 0 at once. *)
Definition idle_host : host :=
  {| base_dir := install_dir;
     shell := fun _ _ => Terminates 5 0 "" "";
     path_exists := fun _ => false;
     path_is_dir := fun _ => false;
     listdir := fun _ => [];
     st_size := fun _ => 0%Z;
     st_mtime := fun _ => 0%Q;
     read_text := fun _ => ReadRaises "" (mkExn OtherException "No such file");
     local_isoformat := fun _ => "1970-01-01T00:00:00";
     markdown := fun s => Ok s |}.

Definition with_shell (sh : string -> path -> behaviour) (h : host) : host :=
  {| base_dir := base_dir h; shell := sh;
     path_exists := path_exists h; path_is_dir := path_is_dir h;
     listdir := listdir h; st_size := st_size h; st_mtime := st_mtime h;
     read_text := read_text h; local_isoformat := local_isoformat h;
     markdown := markdown h |}.

(** Every command takes 45 seconds. *)
Definition slow_host : host :=
  with_shell (fun _ _ => Terminates 45000 0 "done" "") idle_host.

(** No shell can be started. *)
Definition shell_less_host : host :=
  with_shell
    (fun _ _ => CannotRun (mkExn OtherException "[Errno 2] No such file or directory: '/bin/sh'"))
    idle_host.

(** A configured build whose conf/local.conf holds [text]. *)
Definition conf_host (text : string) : host :=
  {| base_dir := install_dir;
     shell := fun _ _ => Terminates 5 0 "" "";
     path_exists := fun p =>
       path_eqb p (install_dir // "oe-init-build-env")
       || path_eqb p (install_dir // "conf" // "local.conf");
     path_is_dir := fun _ => false;
     listdir := fun _ => [];
     st_size := fun _ => 0%Z;
     st_mtime := fun _ => 0%Q;
     read_text := fun _ => ReadOk text;
     local_isoformat := fun _ => "1970-01-01T00:00:00";
     markdown := fun s => Ok s |}.

Definition images_dir : path :=
  install_dir // "BUILD" // "deploy" // "images".

(** No marker file, and a deploy directory with one image for each of two
    machines: qemux86 built first, raspberrypi4 a day later. *)
Definition deploy_host : host :=
  {| base_dir := install_dir;
     shell := fun _ _ => Terminates 5 0 "" "";
     path_exists := fun p =>
       path_eqb p (install_dir // "BUILD") || path_eqb p images_dir;
     path_is_dir := fun p =>
       path_eqb p (images_dir // "qemux86")
       || path_eqb p (images_dir // "raspberrypi4");
     listdir := fun p =>
       if path_eqb p images_dir then ["qemux86"; "raspberrypi4"]
       else if path_eqb p (images_dir // "qemux86") then ["webos-image.wic"]
       else if path_eqb p (images_dir // "raspberrypi4")
            then ["webos-image.wic"]
       else [];
     st_size := fun _ => 1048576%Z;
     st_mtime := fun p =>
       if path_eqb p (images_dir // "qemux86" // "webos-image.wic")
       then 1700000000%Q else 1700086400%Q;
     read_text := fun _ => ReadRaises "" (mkExn OtherException "No such file");
     local_isoformat := fun t =>
       if Qeq_bool t 1700000000 then "2023-11-14T22:13:20"
       else "2023-11-15T22:13:20";
     markdown := fun s => Ok s |}.

Definition sample_table : list process :=
  [ Accessible (mkProcInfo 1 "bash" (Some ["-bash"]) 1700000000);
    Exited;
    Accessible (mkProcInfo 4242 "qemu-system-x86_64"
                  (Some ["qemu-system-x86_64"; "-m"; "2048"]) 1700000000);
    Forbidden ].

(* ================================================================== *)
(** ** The wording of the specification, for comparison *)
(* ================================================================== *)

(** The substring after the first occurrence of [sep], if there is one. *)
Fixpoint after_first (sep : ascii) (s : string) : option string :=
  match s with
  | EmptyString => None
  | String c r => if Ascii.eqb c sep then Some r else after_first sep r
  end.

(** The machine as the specification words it: taken from the first line
    whose trimmed content starts with MACHINE, the value being the
    substring after the first [=] of that line, trimmed and with its
    quotes stripped; null when there is no such line. *)
Fixpoint worded_machine (lines : list string) : option string :=
  match lines with
  | [] => None
  | line :: rest =>
      if PyStr.startswith (PyStr.strip line) "MACHINE" then
        option_map
          (fun v => PyStr.strip_chars squote
                      (PyStr.strip_chars dquote (PyStr.strip v)))
          (after_first "="%char line)
      else worded_machine rest
  end.

(** A line the scan of local.conf stops at: its trimmed content starts
    with MACHINE and it holds an [=]. *)
Definition assigns_machine (line : string) : bool :=
  PyStr.startswith (PyStr.strip line) "MACHINE" && PyStr.mem "="%char line.

(** What the scan of local.conf assigns to [status['machine']]. *)
Fixpoint found_machine (lines : list string) : option string :=
  match lines with
  | [] => None
  | line :: rest =>
      if assigns_machine line
      then Some (PyStr.strip_chars squote
                   (PyStr.strip_chars dquote
                      (PyStr.strip (nth 1 (PyStr.split "="%char line) ""))))
      else found_machine rest
  end.

(** The artifacts one machine directory contributes: the entries whose
    name ends in .wic, when it is a directory. *)
Definition images_of (os : host) (machine_dir : path) : list BuildArtifact :=
  if path_is_dir os machine_dir
  then map (artifact_of os machine_dir) (glob_star os machine_dir ".wic")
  else [].

(** The artifacts found under the deploy directory, in scan order. *)
Definition discovered (os : host) : list BuildArtifact :=
  let deploy_dir := BUILD_DIR os // "deploy" // "images" in
  if path_exists os (BUILD_DIR os) && path_exists os deploy_dir
  then flat_map (images_of os) (iterdir os deploy_dir)
  else [].

(** The status after the first half of [get_build_status]. *)
Definition after_conf (os : host) : BuildStatus :=
  let conf := BASE_DIR os // "conf" // "local.conf" in
  {| configured := path_exists os (BASE_DIR os // "oe-init-build-env");
     machine :=
       if path_exists os (BASE_DIR os // "oe-init-build-env")
          && path_exists os conf
       then found_machine (fst (open_lines os conf))
       else None;
     builds := [];
     last_build := None |}.

(** The processes of a table whose information can be read. *)
Fixpoint accessible (table : list process) : list proc_info :=
  match table with
  | [] => []
  | Accessible i :: rest => i :: accessible rest
  | _ :: rest => accessible rest
  end.

(** The entry listed for a process. *)
Definition listed_as (os : host) (i : proc_info) : QemuProcess :=
  {| pid := info_pid i;
     name := info_name i;
     cmdline := match info_cmdline i with
                | Some args => PyStr.join " " args
                | None => ""
                end;
     started := local_isoformat os (info_create_time i) |}.

(** A spelling of "qemu" in any mix of cases. *)
Definition spells_qemu (q : string) : Prop :=
  exists c1 c2 c3 c4 : ascii,
    q = String c1 (String c2 (String c3 (String c4 EmptyString)))
    /\ (c1 = "q" \/ c1 = "Q")%char /\ (c2 = "e" \/ c2 = "E")%char
    /\ (c3 = "m" \/ c3 = "M")%char /\ (c4 = "u" \/ c4 = "U")%char.

(** The test of [get_qemu_processes] on the name of a process. *)
Definition names_qemu (i : proc_info) : bool :=
  PyStr.contains "qemu" (PyStr.lower (info_name i)).

(** Largest key first: no element is followed by one of larger key. *)
Definition descending {A : Type} (key : A -> string) (x y : A) : Prop :=
  String.leb (key y) (key x) = true.

Definition timed_out : CommandResult :=
  {| success := false; stdout := ""; stderr := "Command timed out";
     returncode := (-1)%Z |}.

Definition failed_with (e : exn) : CommandResult :=
  {| success := false; stdout := ""; stderr := str e; returncode := (-1)%Z |}.


(* ================================================================== *)
(** ** The rest of app.py *)
(* ================================================================== *)

(** What [psutil.virtual_memory()] and [psutil.disk_usage(p)] return. *)
Record svmem : Type := mkSvmem {
  vm_total : Z;
  vm_available : Z;
  vm_percent : Q;
  vm_used : Z;
  vm_free : Z
}.

Record sdiskusage : Type := mkSdiskusage {
  du_total : Z;
  du_used : Z;
  du_free : Z;
  du_percent : Q
}.

(** The system-wide observations of psutil.  [psutil_cpu_count logical]
    is [psutil.cpu_count(logical=logical)], whose parameter defaults to
    True; it is None when the count cannot be determined. *)
Record probe : Type := mkProbe {
  psutil_cpu_percent : Q -> result Q;           (* cpu_percent(interval) *)
  psutil_cpu_count : bool -> result (option Z);
  psutil_virtual_memory : result svmem;
  psutil_disk_usage : string -> result sdiskusage
}.

(** The three dictionaries of the one [get_system_info] returns. *)
Record CpuInfo : Type := mkCpuInfo {
  cpu_percent : Q;
  cpu_count : option Z;            (* key count *)
  cpu_count_logical : option Z     (* key count_logical *)
}.

Record MemoryInfo : Type := mkMemoryInfo {
  memory_total : Z;
  memory_available : Z;
  memory_percent : Q;
  memory_used : Z;
  memory_free : Z
}.

Record DiskInfo : Type := mkDiskInfo {
  disk_total : Z;
  disk_used : Z;
  disk_free : Z;
  disk_percent : Q
}.

Record SystemInfo : Type := mkSystemInfo {
  cpu : CpuInfo;
  memory : MemoryInfo;
  disk : DiskInfo
}.

(** The payload of [/api/status]. *)
Record StatusPayload : Type := mkStatusPayload {
  status_git : GitInfo;
  status_system : SystemInfo;
  status_build : BuildStatus;
  status_qemu : list QemuProcess;
  status_timestamp : string
}.

(** The payloads of [/api/layers]. *)
Inductive LayersBody : Type :=
| LayersMessage (file : string) (available : bool) (message : string)
| LayersListing (file : string) (available : bool) (layers : list string)
| LayersError (error : string).

(** An element of the list [/api/scripts] returns. *)
Record ScriptEntry : Type := mkScriptEntry {
  script_name : string;        (* key name *)
  script_path : string;        (* key path *)
  executable : bool;
  script_size : Z;             (* key size *)
  script_modified : string     (* key modified *)
}.

(** [os.environ] *)
Definition environ : Type := string -> option string.

(** [os.environ.get(key, default)] *)
Definition environ_get (env : environ) (key default : string) : string :=
  match env key with
  | Some v => v
  | None => default
  end.

(** [p.relative_to(base)]: the parts of [p] below [base]; a ValueError
    when [p] is not below [base]. *)
Fixpoint relative_to (p base : path) : result path :=
  match base with
  | [] => Ok p
  | b :: base' =>
      match p with
      | a :: p' =>
          if String.eqb a b then relative_to p' base'
          else Raise (mkExn OtherException "path is not in the subpath")
      | [] => Raise (mkExn OtherException "path is not in the subpath")
      end
  end.

(** [str(p)] of a relative path. *)
Definition path_str (p : path) : string := String.concat "/" p.

Section DashboardRest.

Variable os : host.

(** [get_system_info]; the handler-free calls raise what psutil raises. *)
Definition get_system_info (ps : probe) : result SystemInfo :=
  cpu_percent <- psutil_cpu_percent ps 1 ;;
  memory <- psutil_virtual_memory ps ;;
  disk <- psutil_disk_usage ps "/" ;;
  count <- psutil_cpu_count ps true ;;
  count_logical <- psutil_cpu_count ps true ;;
  Ok {| cpu := {| cpu_percent := cpu_percent;
                  cpu_count := count;
                  cpu_count_logical := count_logical |};
        memory := {| memory_total := vm_total memory;
                     memory_available := vm_available memory;
                     memory_percent := vm_percent memory;
                     memory_used := vm_used memory;
                     memory_free := vm_free memory |};
        disk := {| disk_total := du_total disk;
                   disk_used := du_used disk;
                   disk_free := du_free disk;
                   disk_percent := du_percent disk |} |}.

(** [/api/status]; [table] is the process table the call observes and
    [now] is [datetime.now().isoformat()]. *)
Definition api_status (ps : probe) (table : list process) (now : string)
  : result StatusPayload :=
  git <- get_git_info os ;;
  system <- get_system_info ps ;;
  build <- get_build_status os ;;
  qemu <- get_qemu_processes os table ;;
  Ok {| status_git := git;
        status_system := system;
        status_build := build;
        status_qemu := qemu;
        status_timestamp := now |}.

(** The loop of [/api/scripts] over [SCRIPTS_DIR.glob('*.sh')];
    [access_x p] is [os.access(p, os.X_OK)]. *)
Fixpoint scripts_loop (access_x : path -> bool) (found : list path)
    (scripts : list ScriptEntry) : result (list ScriptEntry) :=
  match found with
  | [] => Ok scripts
  | script :: rest =>
      rel <- relative_to script (BASE_DIR os) ;;
      scripts_loop access_x rest
        (scripts ++
         [ {| script_name := path_name script;
              script_path := path_str rel;
              executable := access_x script;
              script_size := st_size os script;
              script_modified :=
                local_isoformat os (st_mtime os script) |} ])%list
  end.

(** [/api/scripts] *)
Definition api_scripts (access_x : path -> bool) : result (list ScriptEntry) :=
  if path_exists os (SCRIPTS_DIR os) then
    scripts_loop access_x (glob_star os (SCRIPTS_DIR os) ".sh") []
  else Ok [].

(** [/api/layers]; the inner [return] is the [Some] of the first step. *)
Definition api_layers : result (LayersBody * Z) :=
  let layers : list string := [] in
  let weboslayers_file := BASE_DIR os // "weboslayers.py" in
  early <-
    (if path_exists os weboslayers_file then
       try_except
         (content <- open_read os weboslayers_file ;;
          if PyStr.contains "Layers = [" content then
            Ok (Some (LayersMessage "weboslayers.py" true
                        "Layer information available in weboslayers.py",
                      200%Z))
          else Ok None)
         [ (except_Exception,
            fun e => Ok (Some (LayersError (str e), 500%Z))) ]
     else Ok None) ;;
  match early with
  | Some answer => Ok answer
  | None =>
      Ok (LayersListing "weboslayers.py" (path_exists os weboslayers_file)
            layers, 200%Z)
  end.

End DashboardRest.

(** The entry [/api/scripts] lists for the name [n] of the scripts
    directory. *)
Definition script_entry (os : host) (access_x : path -> bool) (n : string)
  : ScriptEntry :=
  {| script_name := n;
     script_path := "scripts/" ++ n;
     executable := access_x (SCRIPTS_DIR os // n);
     script_size := st_size os (SCRIPTS_DIR os // n);
     script_modified := local_isoformat os (st_mtime os (SCRIPTS_DIR os // n)) |}.

(** The debug flag of the main block:
    [os.environ.get('FLASK_DEBUG', 'False').lower() == 'true']. *)
Definition debug_mode (env : environ) : bool :=
  String.eqb (PyStr.lower (environ_get env "FLASK_DEBUG" "False")) "true".

(** A spelling of "true" in any mix of cases. *)
Definition spells_true (v : string) : Prop :=
  exists c1 c2 c3 c4 : ascii,
    v = String c1 (String c2 (String c3 (String c4 EmptyString)))
    /\ (c1 = "t" \/ c1 = "T")%char /\ (c2 = "r" \/ c2 = "R")%char
    /\ (c3 = "u" \/ c3 = "U")%char /\ (c4 = "e" \/ c4 = "E")%char.

(** The elements whose key is [m]. *)
Definition tied_with {A : Type} (key : A -> string) (m : string) (a : A)
  : bool :=
  String.eqb (key a) m.

(** The first and the last character of a string. *)
Definition first_char (s : string) : option ascii :=
  match s with
  | EmptyString => None
  | String c _ => Some c
  end.

Fixpoint last_char (s : string) : option ascii :=
  match s with
  | EmptyString => None
  | String c EmptyString => Some c
  | String _ r => last_char r
  end.

(** A host on which git answers: a branch, a commit and one modified file. *)
Definition git_host : host :=
  with_shell
    (fun cmd _ =>
       if String.eqb cmd "git rev-parse --abbrev-ref HEAD"
       then Terminates 12 0 ("main" ++ NL) ""
       else if String.eqb cmd "git rev-parse --short HEAD"
       then Terminates 11 0 ("3f2a1bc" ++ NL) ""
       else if String.eqb cmd "git status --short"
       then Terminates 20 0 (" M app.py" ++ NL) ""
       else Terminates 1 127 "" "command not found")
    idle_host.

(** An installation with a docs directory of two readable files, a
    scripts directory of two entries and a weboslayers.py. *)
Definition docs_host : host :=
  {| base_dir := install_dir;
     shell := fun _ _ => Terminates 5 0 "" "";
     path_exists := fun p =>
       path_eqb p (install_dir // "docs" // "README.md")
       || path_eqb p (install_dir // "docs" // "notes.txt")
       || path_eqb p (install_dir // "docs" // "locked.md")
       || path_eqb p (install_dir // "scripts")
       || path_eqb p (install_dir // "weboslayers.py");
     path_is_dir := fun p => path_eqb p (install_dir // "scripts");
     listdir := fun p =>
       if path_eqb p (install_dir // "scripts")
       then ["build.sh"; "README"; "run-qemu.sh"]
       else [];
     st_size := fun _ => 512%Z;
     st_mtime := fun _ => 1700000000%Q;
     read_text := fun p =>
       if path_eqb p (install_dir // "docs" // "locked.md")
       then ReadRaises "" (mkExn OtherException "[Errno 13] Permission denied")
       else if path_eqb p (install_dir // "weboslayers.py")
       then ReadOk ("webos_layers = [" ++ NL ++ "]" ++ NL)
       else ReadOk ("line one" ++ String CR NL ++ "line two");
     local_isoformat := fun _ => "2023-11-14T22:13:20";
     markdown := fun s => Ok ("<p>" ++ s ++ "</p>") |}.

(** A machine with four logical processors. *)
Definition sample_probe : probe :=
  {| psutil_cpu_percent := fun _ => Ok (25 # 2);
     psutil_cpu_count := fun logical => Ok (Some (if logical then 4 else 2)%Z);
     psutil_virtual_memory := Ok (mkSvmem 8000 5000 (75 # 2) 3000 1000);
     psutil_disk_usage := fun _ => Ok (mkSdiskusage 100000 40000 60000 40) |}.

(* ================================================================== *)
(** ** Facts about the string methods *)
(* ================================================================== *)

Module PyStrFacts.
Import PyStr.

Lemma append_nil_r (s : string) : s ++ "" = s.
Proof. induction s as [|c s IH]; simpl; [reflexivity | now rewrite IH]. Qed.

Lemma prefix_iff (p s : string) :
  String.prefix p s = true <-> exists post, s = p ++ post.
Proof.
  revert s; induction p as [|c p IH]; intros s.
  - destruct s; simpl; split; intros _; eauto.
  - destruct s as [|d s]; simpl.
    + split; [discriminate | intros [post H]; discriminate].
    + destruct (ascii_dec c d) as [->|Hne].
      * rewrite IH. split; intros [post H]; exists post; congruence.
      * split; [discriminate | intros [post H]; congruence].
Qed.

Lemma contains_nil (needle : string) :
  contains needle "" = String.prefix needle "".
Proof. simpl. apply orb_false_r. Qed.

Lemma contains_cons (needle : string) (c : ascii) (s : string) :
  contains needle (String c s)
  = String.prefix needle (String c s) || contains needle s.
Proof. reflexivity. Qed.

Lemma contains_iff (needle s : string) :
  contains needle s = true <-> exists pre post, s = pre ++ needle ++ post.
Proof.
  induction s as [|c s IH].
  - rewrite contains_nil, prefix_iff. split.
    + intros [post H]. exists "", post. exact H.
    + intros [pre [post H]]. destruct pre; simpl in H; [eauto | discriminate].
  - rewrite contains_cons, orb_true_iff, IH, prefix_iff. split.
    + intros [[post H] | [pre [post H]]].
      * exists "", post. exact H.
      * exists (String c pre), post. simpl. now rewrite H.
    + intros [pre [post H]]. destruct pre as [|d pre]; simpl in H.
      * left. eauto.
      * right. exists pre, post. congruence.
Qed.

Lemma lower_app (a b : string) : lower (a ++ b) = lower a ++ lower b.
Proof. induction a as [|c a IH]; simpl; [reflexivity | now rewrite IH]. Qed.

Lemma lower_split (s a b : string) :
  lower s = a ++ b ->
  exists s1 s2, s = s1 ++ s2 /\ lower s1 = a /\ lower s2 = b.
Proof.
  revert s; induction a as [|c a IH]; intros s H; simpl in H.
  - exists "", s. auto.
  - destruct s as [|d s]; simpl in H; [discriminate|].
    injection H as Hc Hs. destruct (IH _ Hs) as [s1 [s2 [E [L1 L2]]]].
    exists (String d s1), s2. simpl. subst. auto.
Qed.

(** The caseless reading of the four letters of the needle. *)
Ltac by_cases_on c :=
  destruct c as [[] [] [] [] [] [] [] []]; vm_compute;
  (split; [ intros H; try discriminate H; auto
          | intros [H|H]; try discriminate H; reflexivity ]).

Lemma lower_char_q (c : ascii) :
  lower_char c = "q"%char <-> c = "q"%char \/ c = "Q"%char.
Proof. by_cases_on c. Qed.

Lemma lower_char_e (c : ascii) :
  lower_char c = "e"%char <-> c = "e"%char \/ c = "E"%char.
Proof. by_cases_on c. Qed.

Lemma lower_char_m (c : ascii) :
  lower_char c = "m"%char <-> c = "m"%char \/ c = "M"%char.
Proof. by_cases_on c. Qed.

Lemma lower_char_u (c : ascii) :
  lower_char c = "u"%char <-> c = "u"%char \/ c = "U"%char.
Proof. by_cases_on c. Qed.

End PyStrFacts.

Module SplitFacts.
Import PyStr PyStrFacts.

Lemma split_nonempty (sep : ascii) (s : string) : split sep s <> [].
Proof.
  induction s as [|c s IH]; simpl; [discriminate|].
  destruct (Ascii.eqb c sep); [discriminate|].
  destruct (split sep s); [contradiction | discriminate].
Qed.

(** Without a separator nothing is split. *)
Lemma split_without (sep : ascii) (s : string) :
  mem sep s = false -> split sep s = [s].
Proof.
  induction s as [|c s IH]; simpl; [reflexivity|].
  rewrite (Ascii.eqb_sym sep c). intros H.
  apply orb_false_iff in H as [Hc Hs].
  rewrite Hc, (IH Hs). reflexivity.
Qed.

(** With a separator there are at least two fields. *)
Lemma split_with (sep : ascii) (s : string) :
  mem sep s = true -> (1 < List.length (split sep s))%nat.
Proof.
  induction s as [|c s IH]; simpl; [discriminate|].
  rewrite (Ascii.eqb_sym sep c).
  destruct (Ascii.eqb c sep); simpl.
  - intros _. pose proof (split_nonempty sep s).
    destruct (split sep s); [contradiction | simpl; lia].
  - intros H. specialize (IH H).
    destruct (split sep s); simpl in *; lia.
Qed.

(** The first field ends at the first separator. *)
Lemma split_first (sep : ascii) (a r : string) :
  mem sep a = false ->
  split sep (a ++ String sep r) = a :: split sep r.
Proof.
  induction a as [|c a IH]; simpl.
  - intros _. now rewrite Ascii.eqb_refl.
  - rewrite (Ascii.eqb_sym sep c). intros H.
    apply orb_false_iff in H as [Hc Ha].
    rewrite Hc, (IH Ha). reflexivity.
Qed.

(** A field ends at the next separator or with the string. *)
Lemma split_head (sep : ascii) (b r : string) :
  mem sep b = false ->
  r = "" \/ (exists r', r = String sep r') ->
  exists fields, split sep (b ++ r) = b :: fields.
Proof.
  intros Hb [-> | [r' ->]].
  - rewrite append_nil_r, split_without by assumption. eauto.
  - rewrite split_first by assumption. eauto.
Qed.

(** [parts[1]] of a line: the text between its first separator and the
    next one, or the end of the line. *)
Lemma split_second (sep : ascii) (a b r : string) :
  mem sep a = false -> mem sep b = false ->
  r = "" \/ (exists r', r = String sep r') ->
  (1 < List.length (split sep (a ++ String sep (b ++ r))))%nat
  /\ nth 1 (split sep (a ++ String sep (b ++ r))) "" = b.
Proof.
  intros Ha Hb Hr. rewrite split_first by assumption.
  destruct (split_head sep b r Hb Hr) as [fields ->].
  simpl. split; [lia | reflexivity].
Qed.

Lemma mem_app (c : ascii) (a b : string) :
  mem c (a ++ b) = mem c a || mem c b.
Proof.
  induction a as [|d a IH]; simpl; [reflexivity|].
  now rewrite IH, orb_assoc.
Qed.

Lemma truthy_iff (s : string) : truthy s = true <-> s <> "".
Proof. destruct s; simpl; split; congruence. Qed.

End SplitFacts.

(* ================================================================== *)
(** ** Facts about the order of strings and the sort *)
(* ================================================================== *)

Module SortFacts.

Lemma ascii_compare_refl (a : ascii) : Ascii.compare a a = Eq.
Proof. unfold Ascii.compare. apply N.compare_refl. Qed.

Lemma ascii_compare_trans (c : comparison) (x y z : ascii) :
  Ascii.compare x y = c -> Ascii.compare y z = c -> Ascii.compare x z = c.
Proof.
  unfold Ascii.compare. destruct c; intros H1 H2.
  - apply N.compare_eq_iff in H1, H2. apply N.compare_eq_iff. congruence.
  - rewrite N.compare_lt_iff in *. lia.
  - rewrite N.compare_gt_iff in *. lia.
Qed.

Lemma compare_lt_trans (s1 s2 s3 : string) :
  String.compare s1 s2 = Lt -> String.compare s2 s3 = Lt ->
  String.compare s1 s3 = Lt.
Proof.
  revert s2 s3; induction s1 as [|a s1 IH]; intros [|b s2] [|c s3];
    simpl; try congruence.
  destruct (Ascii.compare a b) eqn:Eab; try discriminate;
    destruct (Ascii.compare b c) eqn:Ebc; try discriminate; intros H1 H2.
  - apply Ascii.compare_eq_iff in Eab, Ebc. subst.
    rewrite ascii_compare_refl. eauto.
  - apply Ascii.compare_eq_iff in Eab. subst. now rewrite Ebc.
  - apply Ascii.compare_eq_iff in Ebc. subst. now rewrite Eab.
  - now rewrite (ascii_compare_trans Lt a b c).
Qed.

Lemma leb_iff (s1 s2 : string) :
  String.leb s1 s2 = true <-> String.compare s1 s2 = Lt \/ s1 = s2.
Proof.
  unfold String.leb. destruct (String.compare s1 s2) eqn:E; split; auto.
  - intros _. right. now apply String.compare_eq_iff.
  - discriminate.
  - intros [H | ->]; [discriminate|].
    assert (String.compare s2 s2 = Eq) as R.
    { clear E. induction s2 as [|c s IH]; simpl; [reflexivity|].
      now rewrite ascii_compare_refl. }
    congruence.
Qed.

Lemma leb_trans (s1 s2 s3 : string) :
  String.leb s1 s2 = true -> String.leb s2 s3 = true ->
  String.leb s1 s3 = true.
Proof.
  rewrite !leb_iff. intros [H1 | ->] [H2 | ->]; auto.
  left. eapply compare_lt_trans; eauto.
Qed.

Lemma ltb_leb (s1 s2 : string) :
  String.ltb s1 s2 = true -> String.leb s1 s2 = true.
Proof.
  unfold String.ltb, String.leb. now destruct (String.compare s1 s2).
Qed.

Lemma not_ltb_leb (s1 s2 : string) :
  String.ltb s1 s2 = false -> String.leb s2 s1 = true.
Proof.
  unfold String.ltb, String.leb. rewrite (String.compare_antisym s1 s2).
  now destruct (String.compare s2 s1).
Qed.

Lemma ltb_asym (s1 s2 : string) :
  String.ltb s1 s2 = true -> String.ltb s2 s1 = false.
Proof.
  unfold String.ltb. rewrite (String.compare_antisym s1 s2).
  now destruct (String.compare s2 s1).
Qed.

Section Sorting.
Context {A : Type} (key : A -> string).

Lemma insert_reverse_perm (x : A) (l : list A) :
  Permutation (insert_reverse key x l) (x :: l).
Proof.
  induction l as [|y l IH]; simpl; [reflexivity|].
  destruct (String.ltb (key x) (key y)); [|reflexivity].
  rewrite IH. apply perm_swap.
Qed.

Lemma sort_reverse_perm (l : list A) : Permutation (sort_reverse key l) l.
Proof.
  induction l as [|x l IH]; simpl; [reflexivity|].
  rewrite insert_reverse_perm. now constructor.
Qed.

Lemma insert_reverse_sorted (x : A) (l : list A) :
  StronglySorted (descending key) l ->
  StronglySorted (descending key) (insert_reverse key x l).
Proof.
  induction 1 as [|y l Hl IH Hy]; simpl.
  - repeat constructor.
  - destruct (String.ltb (key x) (key y)) eqn:E.
    + constructor; [exact IH|].
      apply (Permutation_Forall (Permutation_sym (insert_reverse_perm x l))).
      constructor; [|exact Hy]. now apply ltb_leb.
    + constructor; [now constructor|].
      apply not_ltb_leb in E. constructor; [exact E|].
      eapply Forall_impl; [|exact Hy]. intros z Hz.
      unfold descending in *. eapply leb_trans; eauto.
Qed.

Lemma sort_reverse_sorted (l : list A) :
  StronglySorted (descending key) (sort_reverse key l).
Proof.
  induction l as [|x l IH]; simpl; [constructor|].
  now apply insert_reverse_sorted.
Qed.

End Sorting.

End SortFacts.

(* ================================================================== *)
(** ** Command execution and git *)
(* ================================================================== *)

Lemma subprocess_run_exceeds (os : host) (cmd : string) (cwd : path) (t : N) :
  exceeds t (shell os cmd cwd) = true ->
  subprocess_run os cmd cwd t
  = Raise (mkExn TimeoutExpired (timeout_message cmd t)).
Proof.
  unfold subprocess_run. destruct (shell os cmd cwd); intros H.
  - now rewrite H.
  - reflexivity.
  - discriminate.
Qed.

Lemma run_command_returns (os : host) (cmd : string) (cwd : option path) :
  exists r, run_command os cmd cwd = Ok r.
Proof.
  unfold run_command.
  destruct (subprocess_run os cmd (cwd_or_base os cwd) 30) as [c|e]; simpl.
  - eauto.
  - destruct (except_class TimeoutExpired e); eauto.
Qed.

(** C1. A command that runs for more than the 30 seconds of the timeout
    (or never ends) makes [run_command] return success false, an empty
    stdout, the stderr "Command timed out" and the return code -1. *)
Theorem run_command_timeout (os : host) (cmd : string) (cwd : option path) :
  exceeds 30 (shell os cmd (cwd_or_base os cwd)) = true ->
  run_command os cmd cwd
  = Ok {| success := false; stdout := ""; stderr := "Command timed out";
          returncode := (-1)%Z |}.
Proof.
  intros H. unfold run_command.
  now rewrite (subprocess_run_exceeds _ _ _ _ H).
Qed.

Lemma run_command_timeout_witness :
  exceeds 30 (shell slow_host "bitbake webos-image"
                (cwd_or_base slow_host None)) = true
  /\ run_command slow_host "bitbake webos-image" None = Ok timed_out.
Proof.
  split; [reflexivity|].
  apply (run_command_timeout slow_host "bitbake webos-image" None).
  reflexivity.
Defined.

(** C7. When running the command fails with an exception other than the
    timeout, [run_command] returns success false, an empty stdout, the
    message of the exception as stderr and the return code -1; and on no
    host and for no command does [run_command] raise. *)
Theorem run_command_failure (os : host) (cmd : string) (cwd : option path)
    (e : exn) :
  shell os cmd (cwd_or_base os cwd) = CannotRun e ->
  class_of e <> TimeoutExpired ->
  run_command os cmd cwd
  = Ok {| success := false; stdout := ""; stderr := str e;
          returncode := (-1)%Z |}
  /\ (forall os' cmd' cwd', exists r, run_command os' cmd' cwd' = Ok r).
Proof.
  intros Hsh Hcls. split; [|intros; apply run_command_returns].
  unfold run_command, subprocess_run. rewrite Hsh. simpl.
  unfold except_class.
  destruct e as [[] msg]; simpl in *; try reflexivity. contradiction.
Qed.

Lemma run_command_failure_witness :
  run_command shell_less_host "git status --short" None
  = Ok (failed_with (mkExn OtherException "[Errno 2] No such file or directory: '/bin/sh'")).
Proof.
  apply (run_command_failure shell_less_host "git status --short" None
           (mkExn OtherException "[Errno 2] No such file or directory: '/bin/sh'")).
  - reflexivity.
  - discriminate.
Defined.

(** When [run_command] reports success: the command ended within the
    timeout with the return code 0. *)
Lemma run_command_success (os : host) (cmd : string) (cwd : option path)
    (r : CommandResult) :
  run_command os cmd cwd = Ok r ->
  success r = true <->
  exists ms out err,
    shell os cmd (cwd_or_base os cwd) = Terminates ms 0 out err
    /\ (ms <= 30000)%N /\ stdout r = out.
Proof.
  unfold run_command, subprocess_run.
  destruct (shell os cmd (cwd_or_base os cwd)) as [ms rc out err| |e]; simpl.
  - destruct (30000 <? ms)%N eqn:E; simpl.
    + intros [= <-]; simpl. split; [discriminate|].
      intros (ms' & out' & err' & [= -> _ _ _] & Hle & _).
      apply N.ltb_lt in E. lia.
    + intros [= <-]; simpl. apply N.ltb_ge in E. split.
      * intros H. apply Z.eqb_eq in H. subst. eauto 6.
      * intros (ms' & out' & err' & [= _ -> _ _] & _). reflexivity.
  - intros [= <-]; simpl. split; [discriminate|].
    intros (ms' & out' & err' & H & _). discriminate.
  - destruct (except_class TimeoutExpired e); intros [= <-]; simpl;
      (split; [discriminate | intros (ms' & out' & err' & H & _); discriminate]).
Qed.

(** C3. [get_git_info] returns, and its [dirty] is true exactly when the
    status command succeeded and its stdout, trimmed, is not empty; when
    the status command fails, [dirty] is false. *)
Theorem get_git_info_dirty (os : host) :
  exists (g : GitInfo) (status_result : CommandResult),
    get_git_info os = Ok g
    /\ run_command os "git status --short" None = Ok status_result
    /\ (dirty g = true <->
        success status_result = true
        /\ PyStr.strip (stdout status_result) <> "")
    /\ (success status_result = false -> dirty g = false).
Proof.
  unfold get_git_info.
  destruct (run_command_returns os "git rev-parse --abbrev-ref HEAD" None)
    as [b ->].
  destruct (run_command_returns os "git rev-parse --short HEAD" None)
    as [c ->].
  destruct (run_command_returns os "git status --short" None) as [s Hs].
  rewrite Hs. simpl. eexists; exists s. split; [reflexivity|].
  split; [reflexivity|]. simpl.
  destruct (success s); split.
  - rewrite SplitFacts.truthy_iff. tauto.
  - discriminate.
  - split; [discriminate | intros [H _]; discriminate].
  - reflexivity.
Qed.

(* ================================================================== *)
(** ** The build status *)
(* ================================================================== *)

Module BuildFacts.
Import PyStr PyStrFacts SplitFacts SortFacts.

Lemma scan_local_conf_eq (lines : list string) (stop : option exn)
    (st : BuildStatus) :
  scan_local_conf lines stop st
  = match found_machine lines with
    | Some m => Ok (set_machine (Some m) st)
    | None => match stop with Some e => Raise e | None => Ok st end
    end.
Proof.
  induction lines as [|line rest IH]; simpl; [reflexivity|].
  unfold assigns_machine.
  destruct (startswith (strip line) "MACHINE"); simpl; [|exact IH].
  destruct (mem "="%char line) eqn:E.
  - apply split_with in E. apply Nat.ltb_lt in E. now rewrite E.
  - now rewrite (split_without _ _ E).
Qed.

Lemma found_machine_none (lines : list string) :
  Forall (fun l => assigns_machine l = false) lines ->
  found_machine lines = None.
Proof.
  induction 1 as [|l ls Hl _ IH]; simpl; [reflexivity|].
  now rewrite Hl.
Qed.

Lemma found_machine_first (pre post : list string) (line a b r : string) :
  Forall (fun l => assigns_machine l = false) pre ->
  startswith (strip line) "MACHINE" = true ->
  line = a ++ "=" ++ b ++ r ->
  mem "="%char a = false -> mem "="%char b = false ->
  r = "" \/ (exists r', r = "=" ++ r') ->
  found_machine (pre ++ line :: post)%list
  = Some (strip_chars squote (strip_chars dquote (strip b))).
Proof.
  intros Hpre Hstart Hline Ha Hb Hr.
  assert (mem "="%char line = true) as Hmem.
  { rewrite Hline, !mem_app. simpl. now rewrite orb_true_r. }
  induction Hpre as [|l ls Hl _ IH]; cbn [app found_machine].
  - unfold assigns_machine. rewrite Hstart, Hmem. cbn [andb].
    replace line with (a ++ String "="%char (b ++ r)) by now rewrite Hline.
    assert (r = "" \/ (exists r', r = String "="%char r')) as Hr'.
    { destruct Hr as [->|[r' ->]]; [now left | right; now exists r']. }
    now destruct (split_second "="%char a b r Ha Hb Hr') as [_ ->].
  - now rewrite Hl.
Qed.

Lemma append_images_fields (os : host) (st : BuildStatus) (m : path) :
  let st' := append_images os st m in
  configured st' = configured st /\ machine st' = machine st
  /\ last_build st' = last_build st
  /\ builds st' = (builds st ++ images_of os m)%list.
Proof.
  unfold append_images, images_of.
  destruct (path_is_dir os m); cbn zeta; [|now rewrite app_nil_r].
  generalize (glob_star os m ".wic"). intros imgs. revert st.
  induction imgs as [|img imgs IH]; intros st; cbn [fold_left map].
  - now rewrite app_nil_r.
  - destruct (IH (set_builds (builds st ++ [artifact_of os m img]) st))
      as (Hc & Hm & Hl & Hb).
    rewrite Hc, Hm, Hl, Hb. cbn. rewrite <- app_assoc. auto.
Qed.

Lemma scan_deploy_fields (os : host) (dir : path) (st : BuildStatus) :
  let st' := scan_deploy os dir st in
  configured st' = configured st /\ machine st' = machine st
  /\ last_build st' = last_build st
  /\ builds st'
     = (builds st ++ flat_map (images_of os) (iterdir os dir))%list.
Proof.
  unfold scan_deploy. revert st.
  induction (iterdir os dir) as [|m ms IH]; intros st;
    cbn [fold_left flat_map].
  - now rewrite app_nil_r.
  - destruct (IH (append_images os st m)) as (Hc & Hm & Hl & Hb).
    destruct (append_images_fields os st m) as (Hc' & Hm' & Hl' & Hb').
    cbn zeta in *. rewrite Hc, Hm, Hl, Hb, Hc', Hm', Hl', Hb'.
    rewrite <- app_assoc. auto.
Qed.

Lemma deploy_phase_eq (os : host) (st : BuildStatus) :
  builds st = [] -> last_build st = None ->
  (if path_exists os (BUILD_DIR os) then
     let deploy_dir := BUILD_DIR os // "deploy" // "images" in
     if path_exists os deploy_dir then
       let status := scan_deploy os deploy_dir st in
       match builds status with
       | [] => Ok status
       | _ :: _ =>
           let status := set_builds (sort_reverse modified (builds status))
                                    status in
           Ok (set_last_build (hd_error (builds status)) status)
       end
     else Ok st
   else Ok st)
  = Ok {| configured := configured st;
          machine := machine st;
          builds := sort_reverse modified (discovered os);
          last_build := hd_error (sort_reverse modified (discovered os)) |}.
Proof.
  intros Hb Hl. unfold discovered. cbv zeta.
  destruct (path_exists os (BUILD_DIR os)); cbn [andb].
  2:{ destruct st; cbn in *. now subst. }
  destruct (path_exists os (BUILD_DIR os // "deploy" // "images")).
  2:{ destruct st; cbn in *. now subst. }
  destruct (scan_deploy_fields os (BUILD_DIR os // "deploy" // "images") st)
    as (Hc' & Hm' & Hl' & Hb').
  cbv zeta in *. rewrite Hb in Hb'. cbn [app] in Hb'.
  rewrite <- Hb', <- Hc', <- Hm'. rewrite Hl in Hl'.
  destruct (scan_deploy os (BUILD_DIR os // "deploy" // "images") st)
    as [c m bs lb]; cbn in *. rewrite Hl'.
  destruct bs as [|b bs]; reflexivity.
Qed.

(** [get_build_status] returns, and what it returns. *)
Lemma get_build_status_eq (os : host) :
  get_build_status os
  = Ok {| configured := configured (after_conf os);
          machine := machine (after_conf os);
          builds := sort_reverse modified (discovered os);
          last_build := hd_error (sort_reverse modified (discovered os)) |}.
Proof.
  unfold get_build_status, after_conf. cbv zeta.
  set (st0 := {| configured := false; machine := None; builds := [];
                 last_build := None |}).
  destruct (path_exists os (BASE_DIR os // "oe-init-build-env"));
    cbn [andb configured machine].
  - destruct (path_exists os (BASE_DIR os // "conf" // "local.conf")).
    + destruct (open_lines os (BASE_DIR os // "conf" // "local.conf"))
        as [lines stop]. rewrite scan_local_conf_eq. cbn [fst].
      destruct (found_machine lines) as [m|].
      * cbn [try_except bind]. now rewrite deploy_phase_eq.
      * destruct stop as [e|]; cbn [try_except bind except_Exception];
          now rewrite deploy_phase_eq.
    + cbn [bind]. now rewrite deploy_phase_eq.
  - cbn [bind]. now rewrite deploy_phase_eq.
Qed.

End BuildFacts.










(* ================================================================== *)
(** ** Emulator processes *)
(* ================================================================== *)

Module QemuFacts.
Import PyStr PyStrFacts.

Lemma lower_spells (q : string) : lower q = "qemu" <-> spells_qemu q.
Proof.
  unfold spells_qemu. split.
  - destruct q as [|c1 [|c2 [|c3 [|c4 [|c5 q]]]]]; try discriminate.
    cbn [lower]. intros [= H1 H2 H3 H4].
    exists c1, c2, c3, c4.
    rewrite <- lower_char_q, <- lower_char_e, <- lower_char_m,
      <- lower_char_u. auto.
  - intros (c1 & c2 & c3 & c4 & -> & H1 & H2 & H3 & H4). cbn [lower].
    apply lower_char_q in H1. apply lower_char_e in H2.
    apply lower_char_m in H3. apply lower_char_u in H4.
    now rewrite H1, H2, H3, H4.
Qed.

(** The test holds exactly of the names in which some spelling of
    "qemu", in any mix of cases, occurs. *)
Lemma names_qemu_iff (i : proc_info) :
  names_qemu i = true <->
  exists pre q post, info_name i = pre ++ q ++ post /\ spells_qemu q.
Proof.
  unfold names_qemu. rewrite contains_iff. split.
  - intros (pre & post & H).
    apply lower_split in H as (s1 & s2 & -> & <- & H).
    apply lower_split in H as (q & s3 & -> & H & <-).
    exists s1, q, s3. split; [reflexivity | now apply lower_spells].
  - intros (pre & q & post & -> & H). apply lower_spells in H.
    exists (lower pre), (lower post). now rewrite !lower_app, H.
Qed.

Lemma in_accessible (table : list process) (i : proc_info) :
  In i (accessible table) <-> In (Accessible i) table.
Proof.
  induction table as [|[j| |] rest IH]; cbn [accessible In].
  - tauto.
  - rewrite IH. split; intros [H|H]; auto; left; congruence.
  - rewrite IH. split; [auto | intros [H|H]; [discriminate | auto]].
  - rewrite IH. split; [auto | intros [H|H]; [discriminate | auto]].
Qed.

Lemma qemu_loop_eq (os : host) (table : list process)
    (acc : list QemuProcess) :
  qemu_loop os table acc
  = Ok (acc ++ map (listed_as os) (filter names_qemu (accessible table)))%list.
Proof.
  revert acc; induction table as [|[i| |] rest IH]; intros acc;
    cbn [qemu_loop accessible filter map proc_info_of bind].
  - now rewrite app_nil_r.
  - fold (names_qemu i). destruct (names_qemu i);
      cbn [try_except bind filter map]; rewrite IH; [|reflexivity].
    rewrite <- app_assoc. cbn [app]. do 3 f_equal.
    unfold listed_as. f_equal.
    now destruct (info_cmdline i) as [[|a args]|].
  - cbn. apply IH.
  - cbn. apply IH.
Qed.
End QemuFacts.




(* ================================================================== *)
(** ** The documentation endpoint *)
(* ================================================================== *)



(* ================================================================== *)
(** ** Further properties: command execution and git *)
(* ================================================================== *)

Module StripFacts.
Import PyStr.

Lemma lstrip_by_first (p : ascii -> bool) (s : string) (c : ascii) :
  first_char (lstrip_by p s) = Some c -> p c = false.
Proof.
  induction s as [|a s IH]; cbn [lstrip_by]; [discriminate|].
  destruct (p a) eqn:E; [exact IH|].
  cbn [first_char]. intros [= <-]. exact E.
Qed.

Lemma last_char_cons (a : ascii) (s : string) (c : ascii) :
  last_char s = Some c -> last_char (String a s) = Some c.
Proof. destruct s; [discriminate | auto]. Qed.

Lemma rstrip_by_last (p : ascii -> bool) (s : string) (c : ascii) :
  last_char (rstrip_by p s) = Some c -> p c = false.
Proof.
  induction s as [|a s IH]; cbn [rstrip_by]; [discriminate|].
  destruct (rstrip_by p s) as [|b r] eqn:E.
  - destruct (p a) eqn:Ea; cbn [last_char]; [discriminate|].
    intros [= <-]. exact Ea.
  - intros H. apply IH. exact H.
Qed.

Lemma lstrip_by_last (p : ascii -> bool) (s : string) (c : ascii) :
  last_char (lstrip_by p s) = Some c -> last_char s = Some c.
Proof.
  induction s as [|a s IH]; cbn [lstrip_by]; [discriminate|].
  destruct (p a); [|auto].
  intros H. apply last_char_cons. now apply IH.
Qed.

(** What [strip] leaves neither begins nor ends with a stripped
    character. *)
Lemma strip_by_ends (p : ascii -> bool) (s : string) (c : ascii) :
  first_char (strip_by p s) = Some c \/ last_char (strip_by p s) = Some c ->
  p c = false.
Proof.
  unfold strip_by. intros [H | H].
  - now apply lstrip_by_first in H.
  - apply lstrip_by_last in H. now apply rstrip_by_last in H.
Qed.

End StripFacts.

(** X1. A command that ends within the 30 seconds is reported as it ran:
    its stdout, stderr and return code unchanged, and success exactly
    when the return code is 0; a non-zero exit is a result, not an
    error. *)
Theorem run_command_completed (os : host) (cmd : string) (cwd : option path)
    (ms : N) (rc : Z) (out err : string) :
  shell os cmd (cwd_or_base os cwd) = Terminates ms rc out err ->
  (ms <= 30000)%N ->
  run_command os cmd cwd
  = Ok {| success := (rc =? 0)%Z; stdout := out; stderr := err;
          returncode := rc |}.
Proof.
  intros Hsh Hms. unfold run_command, subprocess_run. rewrite Hsh.
  cbn [exceeds]. replace (30 * 1000 <? ms)%N with false; [reflexivity|].
  symmetry. apply N.ltb_ge. lia.
Qed.

Lemma run_command_completed_witness :
  run_command git_host "make -q" None
  = Ok {| success := false; stdout := ""; stderr := "command not found";
          returncode := 127%Z |}.
Proof.
  apply (run_command_completed git_host "make -q" None 1 127 ""
           "command not found").
  - reflexivity.
  - lia.
Defined.

(** X2. On every path of [run_command] the result is consistent:
    success holds exactly when the return code is 0, and the return code
    is -1 unless it is the return code of a command that ended within the
    timeout, whose stdout and stderr the result then carries. *)
Theorem run_command_consistent (os : host) (cmd : string) (cwd : option path) :
  exists r : CommandResult,
    run_command os cmd cwd = Ok r
    /\ success r = (returncode r =? 0)%Z
    /\ (returncode r = (-1)%Z
        \/ exists ms out err,
             shell os cmd (cwd_or_base os cwd)
             = Terminates ms (returncode r) out err
             /\ (ms <= 30000)%N /\ stdout r = out /\ stderr r = err).
Proof.
  unfold run_command, subprocess_run.
  destruct (shell os cmd (cwd_or_base os cwd)) as [ms rc out err| |e];
    cbn [exceeds].
  - destruct (30 * 1000 <? ms)%N eqn:E; eexists; (split; [reflexivity|]);
      cbn; (split; [reflexivity|]); [now left|].
    right. exists ms, out, err. apply N.ltb_ge in E.
    repeat split; [lia].
  - eexists. split; [reflexivity|]. cbn. auto.
  - cbn. destruct (except_class TimeoutExpired e); eexists;
      (split; [reflexivity|]); cbn; auto.
Qed.

(** X3. Each field of [get_git_info] falls back on its own: the branch
    or the commit is "unknown" when its command fails, the status is
    empty when the status command fails, whatever the other two commands
    do; when none of the three succeeds the result is unknown, unknown,
    not dirty, empty. *)
Theorem get_git_info_fallbacks (os : host) :
  exists (g : GitInfo) (b c s : CommandResult),
    get_git_info os = Ok g
    /\ run_command os "git rev-parse --abbrev-ref HEAD" None = Ok b
    /\ run_command os "git rev-parse --short HEAD" None = Ok c
    /\ run_command os "git status --short" None = Ok s
    /\ (success b = false -> branch g = "unknown")
    /\ (success c = false -> commit g = "unknown")
    /\ (success s = false -> status g = "" /\ dirty g = false)
    /\ (success b = false -> success c = false -> success s = false ->
        g = {| branch := "unknown"; commit := "unknown"; dirty := false;
               status := "" |}).
Proof.
  unfold get_git_info.
  destruct (run_command_returns os "git rev-parse --abbrev-ref HEAD" None)
    as [b Hb].
  destruct (run_command_returns os "git rev-parse --short HEAD" None)
    as [c Hc].
  destruct (run_command_returns os "git status --short" None) as [s Hs].
  rewrite Hb, Hc, Hs. cbn [bind].
  eexists; exists b, c, s. split; [reflexivity|].
  cbn [branch commit status dirty].
  split; [reflexivity|]. split; [reflexivity|]. split; [reflexivity|].
  split; [now intros ->|]. split; [now intros ->|].
  split; [now intros ->|]. now intros -> -> ->.
Qed.

Lemma get_git_info_fallbacks_witness :
  get_git_info shell_less_host
  = Ok {| branch := "unknown"; commit := "unknown"; dirty := false;
          status := "" |}.
Proof.
  destruct (get_git_info_fallbacks shell_less_host)
    as (g & b & c & s & Hg & Hb & Hc & Hs & _ & _ & _ & Hall).
  rewrite Hg. f_equal.
  injection Hb as <-. injection Hc as <-. injection Hs as <-.
  apply Hall; reflexivity.
Defined.

(** X4. In every result of [get_git_info] the flag and the text agree:
    dirty holds exactly when the status text is not empty, and branch,
    commit and status neither begin nor end with white space. *)
Theorem get_git_info_trimmed (os : host) :
  exists g : GitInfo,
    get_git_info os = Ok g
    /\ (dirty g = true <-> status g <> "")
    /\ (forall (field : string) (ch : ascii),
          field = branch g \/ field = commit g \/ field = status g ->
          first_char field = Some ch \/ last_char field = Some ch ->
          PyStr.isspace ch = false).
Proof.
  unfold get_git_info.
  destruct (run_command_returns os "git rev-parse --abbrev-ref HEAD" None)
    as [b ->].
  destruct (run_command_returns os "git rev-parse --short HEAD" None)
    as [c ->].
  destruct (run_command_returns os "git status --short" None) as [s ->].
  cbn [bind]. eexists. split; [reflexivity|].
  cbn [branch commit status dirty]. split.
  - destruct (success s).
    + apply SplitFacts.truthy_iff.
    + split; [discriminate | congruence].
  - assert (forall ch, first_char "unknown" = Some ch
                       \/ last_char "unknown" = Some ch ->
                       PyStr.isspace ch = false) as Hunknown.
    { intros ch [[= <-] | [= <-]]; reflexivity. }
    intros field ch [-> | [-> | ->]] Hends.
    + destruct (success b); [|now apply Hunknown].
      now apply (StripFacts.strip_by_ends PyStr.isspace (stdout b)).
    + destruct (success c); [|now apply Hunknown].
      now apply (StripFacts.strip_by_ends PyStr.isspace (stdout c)).
    + destruct (success s).
      * now apply (StripFacts.strip_by_ends PyStr.isspace (stdout s)).
      * destruct Hends as [H | H]; discriminate H.
Qed.

Lemma get_git_info_trimmed_witness :
  get_git_info git_host
  = Ok {| branch := "main"; commit := "3f2a1bc"; dirty := true;
          status := "M app.py" |}
  /\ PyStr.isspace "M" = false.
Proof.
  split; [reflexivity|].
  destruct (get_git_info_trimmed git_host) as (g & Hg & _ & Hends).
  injection Hg as <-.
  apply (Hends "M app.py"); [right; right | left]; reflexivity.
Defined.

(* ================================================================== *)
(** ** Further properties: the build status *)
(* ================================================================== *)

Module BuildMore.
Import PyStr.

Lemma path_name_join (p : path) (n : string) : path_name (p // n) = n.
Proof. unfold path_name, joinpath. apply last_last. Qed.

Lemma in_discovered (os : host) (a : BuildArtifact) :
  In a (discovered os) ->
  let deploy := BUILD_DIR os // "deploy" // "images" in
  path_exists os (BUILD_DIR os) = true
  /\ path_exists os deploy = true
  /\ exists machine_dir img : string,
       In machine_dir (listdir os deploy)
       /\ path_is_dir os (deploy // machine_dir) = true
       /\ In img (listdir os (deploy // machine_dir))
       /\ endswith img ".wic" = true
       /\ a = {| machine_name := machine_dir;
                 image := img;
                 size := st_size os (deploy // machine_dir // img);
                 modified :=
                   local_isoformat os
                     (st_mtime os (deploy // machine_dir // img)) |}.
Proof.
  unfold discovered. cbv zeta.
  destruct (path_exists os (BUILD_DIR os)); [|contradiction].
  destruct (path_exists os (BUILD_DIR os // "deploy" // "images"));
    [|contradiction].
  cbn [andb]. intros H. split; [reflexivity|]. split; [reflexivity|].
  apply in_flat_map in H as (dir & Hdir & Ha).
  unfold iterdir in Hdir. apply in_map_iff in Hdir as (m & <- & Hm).
  unfold images_of in Ha.
  destruct (path_is_dir os (BUILD_DIR os // "deploy" // "images" // m)) eqn:E;
    [|contradiction].
  unfold glob_star in Ha. apply in_map_iff in Ha as (img & <- & Himg).
  apply in_map_iff in Himg as (n & <- & Hn).
  apply filter_In in Hn as [Hn Hwic].
  exists m, n. repeat split; try assumption.
  unfold artifact_of. now rewrite !path_name_join.
Qed.

Lemma found_machine_some (lines : list string) (m : string) :
  found_machine lines = Some m ->
  exists line,
    In line lines /\ assigns_machine line = true
    /\ m = strip_chars squote
             (strip_chars dquote (strip (nth 1 (split "="%char line) ""))).
Proof.
  induction lines as [|l ls IH]; cbn [found_machine]; [discriminate|].
  destruct (assigns_machine l) eqn:E.
  - intros [= <-]. exists l. cbn [In]. auto.
  - intros H. destruct (IH H) as (line & Hin & Hrest).
    exists line. cbn [In]. auto.
Qed.

Section Ties.
Context {A : Type} (key : A -> string) (m : string).

Lemma ltb_irrefl (s : string) : String.ltb s s = false.
Proof.
  destruct (String.ltb s s) eqn:E; [|reflexivity].
  now rewrite (SortFacts.ltb_asym _ _ E) in E.
Qed.

Lemma insert_reverse_tied (x : A) (l : list A) :
  filter (tied_with key m) (insert_reverse key x l)
  = filter (tied_with key m) (x :: l).
Proof.
  induction l as [|y l IH]; cbn [insert_reverse]; [reflexivity|].
  destruct (String.ltb (key x) (key y)) eqn:E; [|reflexivity].
  cbn [filter] in *. rewrite IH. unfold tied_with.
  destruct (String.eqb_spec (key x) m) as [Hx|Hx];
    destruct (String.eqb_spec (key y) m) as [Hy|Hy]; try reflexivity.
  rewrite Hx, Hy, ltb_irrefl in E. discriminate E.
Qed.

(** The sort keeps the elements of one key in their order. *)
Lemma sort_reverse_tied (l : list A) :
  filter (tied_with key m) (sort_reverse key l) = filter (tied_with key m) l.
Proof.
  induction l as [|x l IH]; [reflexivity|].
  cbn [sort_reverse fold_right]. rewrite insert_reverse_tied.
  cbn [filter]. fold (sort_reverse key l). now rewrite IH.
Qed.
End Ties.

End BuildMore.










(* ================================================================== *)
(** ** Further properties: processes, documents, scripts and layers *)
(* ================================================================== *)

Module RestFacts.
Import PyStr PyStrFacts.

Lemma accessible_app (t1 t2 : list process) :
  accessible (t1 ++ t2)%list = (accessible t1 ++ accessible t2)%list.
Proof.
  induction t1 as [|[i| |] t1 IH]; cbn [app accessible]; congruence.
Qed.

Lemma get_qemu_processes_eq (os : host) (table : list process) :
  get_qemu_processes os table
  = Ok (map (listed_as os) (filter names_qemu (accessible table))).
Proof. unfold get_qemu_processes. now rewrite QemuFacts.qemu_loop_eq. Qed.

Lemma get_git_info_returns (os : host) : exists g, get_git_info os = Ok g.
Proof.
  unfold get_git_info.
  destruct (run_command_returns os "git rev-parse --abbrev-ref HEAD" None)
    as [b ->].
  destruct (run_command_returns os "git rev-parse --short HEAD" None)
    as [c ->].
  destruct (run_command_returns os "git status --short" None) as [s ->].
  cbn [bind]. eauto.
Qed.

Lemma relative_to_below (base rest : path) :
  relative_to (base ++ rest)%list base = Ok rest.
Proof.
  induction base as [|b base IH]; cbn [app].
  - now destruct rest.
  - cbn [relative_to]. now rewrite String.eqb_refl.
Qed.

Lemma scripts_loop_eq (os : host) (access_x : path -> bool)
    (names : list string) (acc : list ScriptEntry) :
  scripts_loop os access_x (map (joinpath (SCRIPTS_DIR os)) names) acc
  = Ok (acc ++ map (script_entry os access_x) names)%list.
Proof.
  revert acc; induction names as [|n names IH]; intros acc;
    cbn [map scripts_loop].
  - now rewrite app_nil_r.
  - unfold SCRIPTS_DIR at 1, joinpath at 1 2.
    rewrite <- app_assoc, relative_to_below. cbn [bind].
    rewrite IH, <- app_assoc. cbn [app]. do 3 f_equal.
    unfold script_entry, path_name, SCRIPTS_DIR, joinpath.
    now rewrite last_last.
Qed.

Lemma lower_char_t (c : ascii) :
  lower_char c = "t"%char <-> c = "t"%char \/ c = "T"%char.
Proof. by_cases_on c. Qed.

Lemma lower_char_r (c : ascii) :
  lower_char c = "r"%char <-> c = "r"%char \/ c = "R"%char.
Proof. by_cases_on c. Qed.

Lemma lower_spells_true (v : string) : lower v = "true" <-> spells_true v.
Proof.
  unfold spells_true. split.
  - destruct v as [|c1 [|c2 [|c3 [|c4 [|c5 v]]]]]; try discriminate.
    cbn [lower]. intros [= H1 H2 H3 H4].
    exists c1, c2, c3, c4.
    rewrite <- lower_char_t, <- lower_char_r, <- lower_char_u,
      <- lower_char_e. auto.
  - intros (c1 & c2 & c3 & c4 & -> & H1 & H2 & H3 & H4). cbn [lower].
    apply lower_char_t in H1. apply lower_char_r in H2.
    apply lower_char_u in H3. apply lower_char_e in H4.
    now rewrite H1, H2, H3, H4.
Qed.

End RestFacts.



(** X12. For a file that exists and is read whole, [/api/docs] answers
    200 with the file name as requested: a name that does not end in .md
    gets the text as read (CR LF and CR as LF) in the format text; a name
    that ends in .md gets what the markdown converter makes of that text,
    in the format html. *)
Theorem api_docs_formats (os : host) (filename text : string) :
  path_exists os (DOCS_DIR os // filename) = true ->
  read_text os (DOCS_DIR os // filename) = ReadOk text ->
  (PyStr.endswith filename ".md" = false ->
   api_docs os filename
   = Ok (DocBody filename (universal_newlines text) "text", 200%Z))
  /\ (forall html,
        PyStr.endswith filename ".md" = true ->
        markdown os (universal_newlines text) = Ok html ->
        api_docs os filename = Ok (DocBody filename html "html", 200%Z)).
Proof.
  intros Hexists Hread. unfold api_docs, open_read.
  rewrite Hexists, Hread. cbn [negb bind]. split.
  - now intros ->.
  - intros html -> Hmd. now rewrite Hmd.
Qed.

Lemma api_docs_formats_witness :
  api_docs docs_host "notes.txt"
  = Ok (DocBody "notes.txt" ("line one" ++ NL ++ "line two") "text", 200%Z)
  /\ api_docs docs_host "README.md"
     = Ok (DocBody "README.md"
             ("<p>line one" ++ NL ++ "line two</p>") "html", 200%Z).
Proof.
  split.
  - apply (api_docs_formats docs_host "notes.txt"
             ("line one" ++ String CR NL ++ "line two")); reflexivity.
  - apply (api_docs_formats docs_host "README.md"
             ("line one" ++ String CR NL ++ "line two"));
      reflexivity.
Defined.

(** X13. [/api/layers] always answers, with 200 or 500, and 500 exactly
    when weboslayers.py exists and reading it raises.  In every answer
    200 the file is weboslayers.py and [available] says whether that file
    exists, whatever it contains; the list of layers, when the answer has
    one, is empty. *)
Theorem api_layers_answers (os : host) :
  let layers_file := BASE_DIR os // "weboslayers.py" in
  exists (body : LayersBody) (code : Z),
    api_layers os = Ok (body, code)
    /\ (code = 200 \/ code = 500)%Z
    /\ (code = 500%Z <->
        path_exists os layers_file = true
        /\ exists e, open_read os layers_file = Raise e)
    /\ match body with
       | LayersMessage file available _ =>
           code = 200%Z /\ file = "weboslayers.py"
           /\ available = true /\ path_exists os layers_file = true
           /\ exists content,
                open_read os layers_file = Ok content
                /\ PyStr.contains "Layers = [" content = true
       | LayersListing file available layers =>
           code = 200%Z /\ file = "weboslayers.py"
           /\ available = path_exists os layers_file /\ layers = []
       | LayersError message =>
           code = 500%Z
           /\ exists e, open_read os layers_file = Raise e /\ message = str e
       end.
Proof.
  cbv zeta. unfold api_layers. cbv zeta.
  destruct (path_exists os (BASE_DIR os // "weboslayers.py")) eqn:Hex.
  2:{ cbn. eexists; eexists. split; [reflexivity|]. split; [auto|].
      split; [|auto]. split; [discriminate | intros [H _]; discriminate H]. }
  destruct (open_read os (BASE_DIR os // "weboslayers.py")) as [content|e];
    cbn [bind].
  - destruct (PyStr.contains "Layers = [" content) eqn:Hc; cbn.
    + eexists; eexists. split; [reflexivity|]. split; [auto|].
      split; [|eauto 10].
      split; [discriminate | intros [_ [e H]]; discriminate H].
    + eexists; eexists. split; [reflexivity|]. split; [auto|].
      split; [|auto].
      split; [discriminate | intros [_ [e H]]; discriminate H].
  - cbn. eexists; eexists. split; [reflexivity|]. split; [auto|].
    split; [|eauto]. split; [eauto | reflexivity].
Qed.






(** X17. The debug flag of the main block is on exactly when the
    environment sets FLASK_DEBUG to true in some mix of cases; it is off
    when the variable is unset and for every other value, 1 and yes
    included. *)
Theorem debug_mode_iff (env : environ) :
  (debug_mode env = true <->
   exists v, env "FLASK_DEBUG" = Some v /\ spells_true v)
  /\ (env "FLASK_DEBUG" = None -> debug_mode env = false)
  /\ (env "FLASK_DEBUG" = Some "1" \/ env "FLASK_DEBUG" = Some "yes" ->
      debug_mode env = false).
Proof.
  unfold debug_mode, environ_get. split; [|split].
  - rewrite String.eqb_eq, RestFacts.lower_spells_true.
    destruct (env "FLASK_DEBUG") as [v|].
    + split; [eauto | now intros (v' & [= <-] & H)].
    + split; [|now intros (v' & H & _)].
      intros H. apply RestFacts.lower_spells_true in H. discriminate H.
  - now intros ->.
  - now intros [-> | ->].
Qed.

Lemma debug_mode_iff_witness :
  debug_mode (fun key => if String.eqb key "FLASK_DEBUG"
                         then Some "True" else None) = true.
Proof.
  apply (debug_mode_iff _). exists "True". split; [reflexivity|].
  exists "T"%char, "r"%char, "u"%char, "e"%char. auto 10.
Defined.

